(** * Estacao de alerta de cheias: DispFilaTasks.c

    A shallow embedding of the five FreeRTOS tasks of [DispFilaTasks.c]
    (joystick sampler, OLED display, RGB LED, buzzer, LED matrix) and of
    the queue they share, with the properties of each.

    Conventions.
    - A C [float] is an IEEE 754 binary32 value: a [spec_float] with
      24 bits of precision and maximal exponent 128, every operation
      rounded to nearest, ties to even.
    - A [uint16_t] is a [Z] in [0, 65535]; [adc_read] returns 12 bits.
    - A task body is the list of device events of one loop iteration. *)

From Stdlib Require Import String Ascii DecimalString.
From Stdlib Require Import ZArith List Bool Lia.
From Stdlib Require Import Floats.SpecFloat.
Import ListNotations.

Local Open Scope Z_scope.

(** ** Single precision arithmetic *)

Module F32.

Definition prec : Z := 24.
Definition emax : Z := 128.

Definition float : Type := spec_float.

(** Conversion of a C integer to [float] (exact below 2^24). *)
Definition of_Z (n : Z) : float := binary_normalize prec emax n 0 false.

Definition mul (x y : float) : float := SFmul prec emax x y.
Definition div (x y : float) : float := SFdiv prec emax x y.

(** C comparison [x >= y]; false when either side is a NaN. *)
Definition ge (x y : float) : bool := SFleb y x.
Definition le (x y : float) : bool := SFleb x y.

(** The decimal literal [n / 10^k] read as a float: the quotient of two
    exactly representable integers, rounded once. *)
Definition lit (n : Z) (k : nat) : float := div (of_Z n) (of_Z (10 ^ Z.of_nat k)).

(** A finite float is the rational [num / 2^sh]. *)
Definition num_sh (x : float) : option (Z * Z) :=
  match x with
  | S754_zero _ => Some (0, 0)
  | S754_finite s m e =>
      let v := if s then Z.neg m else Z.pos m in
      if 0 <=? e then Some (v * 2 ^ e, 0) else Some (v, - e)
  | _ => None
  end.

End F32.

(** ** Constants of the source *)

Definition LIMIAR_AGUA : F32.float := F32.of_Z 70.
Definition LIMIAR_CHUVA : F32.float := F32.of_Z 80.
Definition NUM_LEDS : nat := 25.

Definition LED_R : Z := 13.
Definition LED_G : Z := 11.
Definition LED_B : Z := 12.
Definition BUZZER : Z := 21.

(** ** Sensor record *)

Record dados_sensor_t : Type := mk_dados {
  nivel_agua : F32.float;
  volume_chuva : F32.float;
  alerta : bool
}.

(** ** vJoystickTask: one pass of the sampling loop *)

(** [(raw / 4095.0f) * 100.0f] *)
Definition percentual (raw : Z) : F32.float :=
  F32.mul (F32.div (F32.of_Z raw) (F32.of_Z 4095)) (F32.of_Z 100).

(** [(nivel >= LIMIAR_AGUA || chuva >= LIMIAR_CHUVA)] *)
Definition limiar_ultrapassado (nivel chuva : F32.float) : bool :=
  F32.ge nivel LIMIAR_AGUA || F32.ge chuva LIMIAR_CHUVA.

Definition vJoystickTask_dados (raw_y raw_x : Z) : dados_sensor_t :=
  let nivel := percentual raw_y in
  let chuva := percentual raw_x in
  let alerta := limiar_ultrapassado nivel chuva in
  {| nivel_agua := nivel; volume_chuva := chuva; alerta := alerta |}.

(** The 4096 values [adc_read] can return. *)
Definition leituras_adc : list Z := map Z.of_nat (seq 0 4096).

(** Distance of a percentage to the exact quotient [100 * raw / 4095]:
    [erro_ate k raw p] holds when it is at most [2^-k]. *)
Definition erro_ate (k : Z) (raw : Z) (p : F32.float) : bool :=
  match F32.num_sh p with
  | Some (v, sh) => Z.abs (v * 4095 - 100 * raw * 2 ^ sh) * 2 ^ k <=? 4095 * 2 ^ sh
  | None => false
  end.

Definition em_0_100 (p : F32.float) : bool :=
  F32.le (F32.of_Z 0) p && F32.le p (F32.of_Z 100).

(** ** The queue xQueueSensores

    The FreeRTOS queue calls the tasks make, by their documented
    behaviour: a bounded first-in first-out buffer of copies. A call that
    cannot complete returns at once when [xTicksToWait] is zero and puts
    the caller in the Blocked state otherwise. *)

Definition TickType_t : Type := Z.
Definition portMAX_DELAY : TickType_t := 0xFFFFFFFF.

Inductive BaseType_t : Type := pdPASS | errQUEUE_FULL | errQUEUE_EMPTY.

Record QueueHandle_t : Type := mk_fila {
  uxLength : nat;                       (* slots *)
  itens : list dados_sensor_t           (* oldest first *)
}.

Definition xQueueCreate (uxQueueLength : nat) : QueueHandle_t :=
  {| uxLength := uxQueueLength; itens := [] |}.

(** Outcome of a queue call for the calling task. *)
Inductive chamada (A : Type) : Type :=
| Retorna (r : A) (q : QueueHandle_t)
| Bloqueia.
Arguments Retorna {A} r q.
Arguments Bloqueia {A}.

Definition xQueueSend (q : QueueHandle_t) (item : dados_sensor_t)
    (xTicksToWait : TickType_t) : chamada BaseType_t :=
  if (length (itens q) <? uxLength q)%nat
  then Retorna pdPASS {| uxLength := uxLength q; itens := itens q ++ [item] |}
  else if xTicksToWait =? 0 then Retorna errQUEUE_FULL q
  else Bloqueia.

Definition xQueueReceive (q : QueueHandle_t) (xTicksToWait : TickType_t)
    : chamada (BaseType_t * option dados_sensor_t) :=
  match itens q with
  | item :: resto =>
      Retorna (pdPASS, Some item) {| uxLength := uxLength q; itens := resto |}
  | [] => if xTicksToWait =? 0 then Retorna (errQUEUE_EMPTY, None) q
          else Bloqueia
  end.

(** ** The tasks and the system state *)

Inductive tarefa : Type := Display | LedRgb | Buzzer | Matriz.

Definition tarefa_eqb (a b : tarefa) : bool :=
  match a, b with
  | Display, Display | LedRgb, LedRgb | Buzzer, Buzzer | Matriz, Matriz => true
  | _, _ => false
  end.

(** The queue, what each consumer has received so far (oldest first; its
    local [dados] is the last one) and, as a ghost, what the sampler has
    produced so far. *)
Record sistema : Type := mk_sistema {
  xQueueSensores : QueueHandle_t;
  recebidos : tarefa -> list dados_sensor_t;
  produzidos : list dados_sensor_t
}.

(** [main]: a queue of 5 elements, nothing received or produced yet. *)
Definition main : sistema :=
  {| xQueueSensores := xQueueCreate 5;
     recebidos := fun _ => [];
     produzidos := [] |}.

(** The local variable [dados] of a consumer task. *)
Definition dados_de (s : sistema) (t : tarefa) : option dados_sensor_t :=
  last (map Some (recebidos s t)) None.

(** One pass of the loop of [vJoystickTask] on the samples [raw_y], [raw_x]:
    the value [xQueueSend] returns is dropped. [None]: the task blocked. *)
Definition vJoystickTask_ciclo (s : sistema) (raw_y raw_x : Z) : option sistema :=
  let dados := vJoystickTask_dados raw_y raw_x in
  match xQueueSend (xQueueSensores s) dados 0 with
  | Retorna _ q => Some {| xQueueSensores := q;
                           recebidos := recebidos s;
                           produzidos := produzidos s ++ [dados] |}
  | Bloqueia => None
  end.

(** [xQueueReceive(xQueueSensores, &dados, portMAX_DELAY)] by consumer [t].
    [None]: the task blocked on the empty queue. *)
Definition recebe (s : sistema) (t : tarefa) : option sistema :=
  match xQueueReceive (xQueueSensores s) portMAX_DELAY with
  | Retorna (_, Some item) q =>
      Some {| xQueueSensores := q;
              recebidos := fun t' => if tarefa_eqb t t'
                                     then recebidos s t' ++ [item]
                                     else recebidos s t';
              produzidos := produzidos s |}
  | Retorna (_, None) q => Some s
  | Bloqueia => None
  end.

(** A schedule: which task runs its queue call next. *)
Inductive passo : Type :=
| Amostra (raw_y raw_x : Z)       (* vJoystickTask reads the ADC and sends *)
| Le (t : tarefa).                (* consumer [t] calls xQueueReceive *)

(** A blocked task makes no progress: the state is unchanged. *)
Definition executa_passo (s : sistema) (p : passo) : sistema :=
  match p with
  | Amostra raw_y raw_x =>
      match vJoystickTask_ciclo s raw_y raw_x with Some s' => s' | None => s end
  | Le t =>
      match recebe s t with Some s' => s' | None => s end
  end.

Definition executa (s : sistema) (ps : list passo) : sistema :=
  fold_left executa_passo ps s.

(** The sampler alone, consumers never reading: the values [xQueueSend]
    returned, cycle by cycle; [None] if some call blocked. *)
Fixpoint vJoystickTask (q : QueueHandle_t) (amostras : list (Z * Z))
    : option (list BaseType_t * QueueHandle_t) :=
  match amostras with
  | [] => Some ([], q)
  | (raw_y, raw_x) :: resto =>
      match xQueueSend q (vJoystickTask_dados raw_y raw_x) 0 with
      | Retorna r q' =>
          match vJoystickTask q' resto with
          | Some (rs, q'') => Some (r :: rs, q'')
          | None => None
          end
      | Bloqueia => None
      end
  end.


(** The readings the sampler creates, one per cycle. *)
Definition leituras (amostras : list (Z * Z)) : list dados_sensor_t :=
  map (fun a => vJoystickTask_dados (fst a) (snd a)) amostras.

(** ** Device events *)

Inductive evento : Type :=
| ssd1306_fill (value : bool)
| ssd1306_rect (top left width height : Z) (value fill : bool)
| ssd1306_line (x0 y0 x1 y1 : Z) (value : bool)
| ssd1306_draw_string (str : string) (x y : Z)
| ssd1306_send_data
| sleep_ms (ms : Z)
| vTaskDelay (ms : Z)
| gpio_set_function_pwm (gpio : Z)
| pwm_set_wrap (gpio wrap : Z)
| pwm_set_clkdiv (gpio divider : Z)
| pwm_set_enabled (gpio : Z) (enabled : bool)
| pwm_set_gpio_level (gpio level : Z)
| pwm_set_chan_level (gpio level : Z)
| pio_sm_put_blocking (data : Z).

(** ** vDisplayTask *)

(** [char buffer[5]] *)
Definition buffer_size : nat := 5.

(** [10 * v / 2^sh] rounded to the nearest integer, ties to even. *)
Definition decimos (v sh : Z) : Z :=
  let n := 10 * v in
  let d := 2 ^ sh in
  let q := n / d in
  let r := n mod d in
  if 2 * r <? d then q
  else if d <? 2 * r then q + 1
  else if Z.even q then q else q + 1.

Definition decimal (n : Z) : string :=
  NilZero.string_of_uint (N.to_uint (Z.to_N n)).

Definition negativo (x : F32.float) : bool :=
  match x with
  | S754_zero s | S754_infinity s | S754_finite s _ _ => s
  | S754_nan => false
  end.

(** The characters [sprintf(buffer, "%.1f%%", x)] produces, the final NUL
    apart: the value of [x] rounded to one decimal, then a percent sign. *)
Definition sprintf_1f_pct (x : F32.float) : string :=
  ((if negativo x then "-" else "") ++
   match F32.num_sh x with
   | Some (v, sh) =>
       let t := decimos (Z.abs v) sh in
       decimal (t / 10) ++ "." ++ decimal (t mod 10)
   | None => match x with S754_nan => "nan" | _ => "inf" end
   end ++ "%")%string.

(** Bytes [sprintf] stores: the characters and the terminating NUL. *)
Definition bytes_escritos (str : string) : nat := S (String.length str).

Definition cabe_no_buffer (str : string) : bool :=
  (bytes_escritos str <=? buffer_size)%nat.

(** One pass of the loop once [dados] was received ([cor] is always true). *)
Definition vDisplayTask_iter (dados : dados_sensor_t) : list evento :=
  let cor := true in
  [ ssd1306_fill false;
    ssd1306_fill (negb cor);
    ssd1306_rect 3 3 122 60 cor (negb cor);
    ssd1306_line 3 25 123 25 cor;
    ssd1306_line 3 37 123 37 cor;
    ssd1306_line 63 41 63 60 cor ]
  ++ (if alerta dados
      then [ ssd1306_draw_string "Enchente Lida" 12 6;
             ssd1306_draw_string "Evacuar agora" 12 16;
             ssd1306_draw_string "  EMERGENCIA" 10 28 ]
      else [ ssd1306_draw_string "CEPEDI   TIC37" 8 6;
             ssd1306_draw_string "EMBARCATECH" 20 16;
             ssd1306_draw_string "   FreeRTOS" 10 28 ])
  ++ [ ssd1306_draw_string "Nivel" 10 41;
       ssd1306_draw_string "Chuva" 78 41;
       ssd1306_draw_string (sprintf_1f_pct (nivel_agua dados)) 10 52;
       ssd1306_draw_string (sprintf_1f_pct (volume_chuva dados)) 80 52;
       ssd1306_send_data;
       sleep_ms 500 ].

(** ** vLedRgbTask *)

Definition LED_WRAP : Z := 255.

(** Before the loop; a slice is named by the pin it was looked up for. *)
Definition vLedRgbTask_init : list evento :=
  [ gpio_set_function_pwm LED_R; gpio_set_function_pwm LED_G;
    gpio_set_function_pwm LED_B;
    pwm_set_wrap LED_R LED_WRAP; pwm_set_wrap LED_G LED_WRAP;
    pwm_set_wrap LED_B LED_WRAP;
    pwm_set_enabled LED_R true; pwm_set_enabled LED_G true;
    pwm_set_enabled LED_B true ].

Definition vLedRgbTask_iter (dados : dados_sensor_t) : list evento :=
  (if alerta dados
   then [ pwm_set_gpio_level LED_R 255;
          pwm_set_gpio_level LED_G 0;
          pwm_set_gpio_level LED_B 0 ]
   else [ pwm_set_gpio_level LED_R 0;
          pwm_set_gpio_level LED_G 255;
          pwm_set_gpio_level LED_B 0 ])
  ++ [ vTaskDelay 200 ].

(** The level a PWM pin is left at by a run of events, from [nivel0]. *)
Fixpoint nivel_pwm (gpio : Z) (nivel0 : Z) (evs : list evento) : Z :=
  match evs with
  | [] => nivel0
  | pwm_set_gpio_level g l :: resto
  | pwm_set_chan_level g l :: resto =>
      nivel_pwm gpio (if g =? gpio then l else nivel0) resto
  | _ :: resto => nivel_pwm gpio nivel0 resto
  end.

(** ** vBuzzerTask *)

Definition BUZZER_WRAP : Z := 12500.

Definition vBuzzerTask_init : list evento :=
  [ gpio_set_function_pwm BUZZER;
    pwm_set_wrap BUZZER BUZZER_WRAP;
    pwm_set_clkdiv BUZZER 125;
    pwm_set_enabled BUZZER true ].

Definition vBuzzerTask_iter (dados : dados_sensor_t) : list evento :=
  if alerta dados
  then [ pwm_set_chan_level BUZZER 6250;
         vTaskDelay 200;
         pwm_set_chan_level BUZZER 0;
         vTaskDelay 300 ]
  else [ pwm_set_chan_level BUZZER 0;
         vTaskDelay 500 ].

(** The task on the readings it receives, in order. *)
Definition vBuzzerTask (recebidos : list dados_sensor_t) : list evento :=
  flat_map vBuzzerTask_iter recebidos.

(** The output as a timeline: each delay holds the level the pin was last
    set to. A pair is (level, milliseconds). *)
Fixpoint patamares (gpio : Z) (nivel0 : Z) (evs : list evento) : list (Z * Z) :=
  match evs with
  | [] => []
  | pwm_set_gpio_level g l :: resto
  | pwm_set_chan_level g l :: resto =>
      patamares gpio (if g =? gpio then l else nivel0) resto
  | vTaskDelay ms :: resto
  | sleep_ms ms :: resto => (nivel0, ms) :: patamares gpio nivel0 resto
  | _ :: resto => patamares gpio nivel0 resto
  end.

(** The alarm as the state machine of the design: the states, what each
    drives and how long it is held, and the states entered on observing
    an alert flag at a state boundary. *)
Inductive AlarmState : Type := Silent | BeepOn | BeepOff.

Definition alarm_initial : AlarmState := Silent.

Definition alarm_duty (s : AlarmState) : Z :=
  match s with
  | BeepOn => BUZZER_WRAP / 2
  | BeepOff | Silent => 0
  end.

Definition alarm_hold (s : AlarmState) : Z :=
  match s with
  | BeepOn => 200
  | BeepOff => 300
  | Silent => 500
  end.

Definition alarm_observe (alert : bool) : list AlarmState :=
  if alert then [BeepOn; BeepOff] else [Silent].

Definition alarm_run (alerts : list bool) : list AlarmState :=
  flat_map alarm_observe alerts.

(** ** vMatrizLedTask *)

Definition COR_VERMELHO : Z := 0x00FF0000.
Definition COR_VERDE : Z := 0xFF000000.

(** [for (int i = 0; i < NUM_LEDS; i++) pio_sm_put_blocking(pio, sm, cor);]
    with [faltam = NUM_LEDS - i] passes left. *)
Fixpoint laco_matriz (faltam : nat) (cor : Z) : list evento :=
  match faltam with
  | O => []
  | S k => pio_sm_put_blocking cor :: laco_matriz k cor
  end.

Definition vMatrizLedTask_iter (dados : dados_sensor_t) : list evento :=
  let cor := if alerta dados then COR_VERMELHO else COR_VERDE in
  laco_matriz NUM_LEDS cor ++ [ vTaskDelay 500 ].

(** The colour bytes of a word as the matrix takes it: green, red and
    blue in the three upper bytes. *)
Definition canal_verde (w : Z) : Z := Z.land (Z.shiftr w 24) 0xFF.
Definition canal_vermelho (w : Z) : Z := Z.land (Z.shiftr w 16) 0xFF.
Definition canal_azul (w : Z) : Z := Z.land (Z.shiftr w 8) 0xFF.

(** The words pushed to the matrix by a run of events. *)
Definition palavras (evs : list evento) : list Z :=
  flat_map (fun e => match e with pio_sm_put_blocking w => [w] | _ => [] end) evs.

(** The conversion as the design words it, [raw / 4095.0 * 100.0], with
    the decimal constants read in single precision. *)
Definition pct_spec (raw : Z) : F32.float :=
  F32.mul (F32.div (F32.of_Z raw) (F32.lit 40950 1)) (F32.lit 1000 1).

(** Order-preserving sub-list. *)
Inductive subsequencia {A : Type} : list A -> list A -> Prop :=
| sub_nil : subsequencia [] []
| sub_salta x l1 l2 : subsequencia l1 l2 -> subsequencia l1 (x :: l2)
| sub_toma x l1 l2 : subsequencia l1 l2 -> subsequencia (x :: l1) (x :: l2).

(** ** Auxiliary definitions for the statements *)

(** What a consumer holds and what still waits in the queue were
    produced, in that order. *)
Definition em_ordem (s : sistema) : Prop :=
  forall t, subsequencia (recebidos s t ++ itens (xQueueSensores s)) (produzidos s).

(** A reading that came out of the sampling loop. *)
Definition amostrada (d : dados_sensor_t) : Prop :=
  exists raw_y raw_x : Z, d = vJoystickTask_dados raw_y raw_x.


(** Number of readings handed to the four consumers so far. *)
Definition entregas (s : sistema) : nat :=
  length (recebidos s Display) + length (recebidos s LedRgb)
  + length (recebidos s Buzzer) + length (recebidos s Matriz).

(** What a state of the alarm drives and for how long. *)
Definition alarm_patamar (s : AlarmState) : Z * Z := (alarm_duty s, alarm_hold s).

(** ** Further definitions: streams, timing and order *)

(** C comparison [x < y]; false when either side is a NaN. *)
Definition menor_f32 (x y : F32.float) : bool := SFltb x y.

(** A float that is zero or positive with a mantissa below 2^24. *)
Definition forma_normal (p : F32.float) : bool :=
  match p with
  | S754_zero _ => true
  | S754_finite false m e => (Z.pos m <? 2 ^ 24) && (-1000 <? e)
  | _ => false
  end.

(** Order key of such a float: the exponent, then the mantissa. *)
Definition chave (p : F32.float) : Z :=
  match p with
  | S754_finite false m e => (e + 1000) * 2 ^ 24 + Z.pos m
  | _ => 0
  end.

(** [n / d] rounded to the nearest integer, ties to even. *)
Definition arredonda_quociente (n d : Z) : Z :=
  let q := n / d in
  let r := n mod d in
  if 2 * r <? d then q
  else if d <? 2 * r then q + 1
  else if Z.even q then q else q + 1.

(** The exact percentage [100 * raw / 4095] written with one decimal. *)
Definition texto_exato (raw : Z) : string :=
  let t := arredonda_quociente (1000 * raw) 4095 in
  (decimal (t / 10) ++ "." ++ decimal (t mod 10) ++ "%")%string.

(** The samples of a schedule, in order. *)
Definition amostras_de (ps : list passo) : list (Z * Z) :=
  flat_map (fun p => match p with
                     | Amostra raw_y raw_x => [(raw_y, raw_x)]
                     | Le _ => []
                     end) ps.

(** The schedule in which consumer [t] receives after every sample. *)
Definition passos_alternados (t : tarefa) (amostras : list (Z * Z)) : list passo :=
  flat_map (fun a => [Amostra (fst a) (snd a); Le t]) amostras.

(** The consumer loops on the readings they receive, in order. *)
Definition vLedRgbTask (recebidos : list dados_sensor_t) : list evento :=
  flat_map vLedRgbTask_iter recebidos.

Definition vMatrizLedTask (recebidos : list dados_sensor_t) : list evento :=
  flat_map vMatrizLedTask_iter recebidos.

(** Milliseconds a run of events spends in [vTaskDelay] and [sleep_ms]. *)
Fixpoint atraso_total (evs : list evento) : Z :=
  match evs with
  | [] => 0
  | vTaskDelay ms :: resto
  | sleep_ms ms :: resto => ms + atraso_total resto
  | _ :: resto => atraso_total resto
  end.

(** Milliseconds of a timeline during which the level is not zero. *)
Fixpoint tempo_ativo (pts : list (Z * Z)) : Z :=
  match pts with
  | [] => 0
  | (nivel, ms) :: resto => (if nivel =? 0 then 0 else ms) + tempo_ativo resto
  end.

(** What a device shows after one pass of its task, read back as an
    alert flag; [None] when it shows neither the alert nor the normal
    pattern. The levels before the pass are parameters. *)
Definition led_estado (r0 g0 : Z) (evs : list evento) : option bool :=
  let r := nivel_pwm LED_R r0 evs in
  let g := nivel_pwm LED_G g0 evs in
  if (r =? 255) && (g =? 0) then Some true
  else if (r =? 0) && (g =? 255) then Some false
  else None.

Definition todas_iguais (cor : Z) (ws : list Z) : bool :=
  (length ws =? NUM_LEDS)%nat && forallb (Z.eqb cor) ws.

Definition matriz_estado (evs : list evento) : option bool :=
  if todas_iguais COR_VERMELHO (palavras evs) then Some true
  else if todas_iguais COR_VERDE (palavras evs) then Some false
  else None.

Definition buzzer_estado (nivel0 : Z) (evs : list evento) : option bool :=
  if nivel_pwm BUZZER nivel0 evs =? 0
  then Some (existsb (fun pt => negb (fst pt =? 0)) (patamares BUZZER nivel0 evs))
  else None.

Definition faixa_desenhada (texto : string) (evs : list evento) : bool :=
  existsb (fun e => match e with
                    | ssd1306_draw_string str x y =>
                        (x =? 10) && (y =? 28) && String.eqb str texto
                    | _ => false
                    end) evs.

Definition display_estado (evs : list evento) : option bool :=
  let emergencia := faixa_desenhada "  EMERGENCIA" evs in
  let normal := faixa_desenhada "   FreeRTOS" evs in
  if emergencia && negb normal then Some true
  else if normal && negb emergencia then Some false
  else None.

(** ** Further definitions: deliveries and waiting *)

(** The receive calls that returned an item along a schedule: which task
    received which reading, in the order of the calls. *)
Fixpoint registro (s : sistema) (ps : list passo) : list (tarefa * dados_sensor_t) :=
  match ps with
  | [] => []
  | p :: resto =>
      match p with
      | Le t =>
          match xQueueReceive (xQueueSensores s) portMAX_DELAY with
          | Retorna (_, Some item) _ => [(t, item)]
          | _ => []
          end
      | Amostra _ _ => []
      end ++ registro (executa_passo s p) resto
  end.

(** The part of such a record that went to task [t]. *)
Definition recebidos_por (t : tarefa) (reg : list (tarefa * dados_sensor_t))
    : list dados_sensor_t :=
  map snd (filter (fun e => tarefa_eqb t (fst e)) reg).

(** The sends of a schedule that returned errQUEUE_FULL. *)
Fixpoint descartados (s : sistema) (ps : list passo) : nat :=
  match ps with
  | [] => 0%nat
  | p :: resto =>
      Nat.add
        match p with
        | Amostra raw_y raw_x =>
            match xQueueSend (xQueueSensores s) (vJoystickTask_dados raw_y raw_x) 0 with
            | Retorna errQUEUE_FULL _ => 1%nat
            | _ => 0%nat
            end
        | Le _ => 0%nat
        end
        (descartados (executa_passo s p) resto)
  end.

(** The period a PWM slice is left with by a run of events. *)
Fixpoint wrap_pwm (gpio : Z) (evs : list evento) : option Z :=
  match evs with
  | [] => None
  | e :: resto =>
      match wrap_pwm gpio resto with
      | Some w => Some w
      | None => match e with
                | pwm_set_wrap g w => if g =? gpio then Some w else None
                | _ => None
                end
      end
  end.

(** The buzzer output in time. Every pass of the loop starts in
    [xQueueReceive(xQueueSensores, &dados, portMAX_DELAY)], where the task
    stays blocked until a reading is there: a run is the list of the
    readings received, each with the milliseconds the task was blocked
    before it got it. The level is held while the task is blocked. *)
Fixpoint linha_do_tempo (nivel0 : Z) (rs : list (Z * dados_sensor_t))
    : list (Z * Z) :=
  match rs with
  | [] => []
  | (espera, dados) :: resto =>
      (nivel0, espera)
        :: patamares BUZZER nivel0 (vBuzzerTask_iter dados)
        ++ linha_do_tempo (nivel_pwm BUZZER nivel0 (vBuzzerTask_iter dados)) resto
  end.

(** A timeline with neighbouring stretches of one level joined. *)
Fixpoint funde (pts : list (Z * Z)) : list (Z * Z) :=
  match pts with
  | [] => []
  | (nivel, ms) :: resto =>
      match funde resto with
      | (nivel', ms') :: resto' =>
          if nivel =? nivel' then (nivel, ms + ms') :: resto'
          else (nivel, ms) :: (nivel', ms') :: resto'
      | [] => [(nivel, ms)]
      end
  end.

(** * Properties *)

(** ** Sampling and classification *)

Lemma leituras_adc_In (raw : Z) : 0 <= raw <= 4095 -> In raw leituras_adc.
Proof.
  intros H. unfold leituras_adc. apply in_map_iff.
  exists (Z.to_nat raw). split; [lia | apply in_seq; lia].
Qed.

Lemma para_toda_leitura (P : Z -> bool) :
  forallb P leituras_adc = true ->
  forall raw, 0 <= raw <= 4095 -> P raw = true.
Proof.
  intros H raw Hraw. rewrite forallb_forall in H.
  apply H, leituras_adc_In, Hraw.
Qed.

Lemma percentual_pct_spec (raw : Z) : percentual raw = pct_spec raw.
Proof.
  unfold percentual, pct_spec.
  replace (F32.lit 40950 1) with (F32.of_Z 4095) by (vm_compute; reflexivity).
  replace (F32.lit 1000 1) with (F32.of_Z 100) by (vm_compute; reflexivity).
  reflexivity.
Qed.

Lemma percentual_em_0_100 (raw : Z) :
  0 <= raw <= 4095 -> em_0_100 (percentual raw) = true.
Proof.
  apply (para_toda_leitura (fun r => em_0_100 (percentual r))).
  vm_compute. reflexivity.
Qed.

Lemma percentual_erro (raw : Z) :
  0 <= raw <= 4095 -> erro_ate 17 raw (percentual raw) = true.
Proof.
  apply (para_toda_leitura (fun r => erro_ate 17 r (percentual r))).
  vm_compute. reflexivity.
Qed.

(** On the samples the ADC can return, the two tests are tests on the raw
    values: the level reaches 70% from 2867 on, the rain 80% from 3276. *)
Lemma limiar_agua_amostra (raw : Z) :
  0 <= raw <= 4095 ->
  F32.ge (percentual raw) LIMIAR_AGUA = (2867 <=? raw).
Proof.
  intros H. apply eqb_prop.
  revert raw H.
  apply (para_toda_leitura
           (fun r => eqb (F32.ge (percentual r) LIMIAR_AGUA) (2867 <=? r))).
  vm_compute. reflexivity.
Qed.

Lemma limiar_chuva_amostra (raw : Z) :
  0 <= raw <= 4095 ->
  F32.ge (percentual raw) LIMIAR_CHUVA = (3276 <=? raw).
Proof.
  intros H. apply eqb_prop.
  revert raw H.
  apply (para_toda_leitura
           (fun r => eqb (F32.ge (percentual r) LIMIAR_CHUVA) (3276 <=? r))).
  vm_compute. reflexivity.
Qed.

Lemma alerta_por_amostra (raw_y raw_x : Z) :
  0 <= raw_y <= 4095 -> 0 <= raw_x <= 4095 ->
  alerta (vJoystickTask_dados raw_y raw_x) = (2867 <=? raw_y) || (3276 <=? raw_x).
Proof.
  intros Hy Hx. cbn [vJoystickTask_dados alerta]. unfold limiar_ultrapassado.
  rewrite (limiar_agua_amostra _ Hy), (limiar_chuva_amostra _ Hx). reflexivity.
Qed.

(** C4. For raw samples in [0, 4095] the two percentages of the reading
    are [raw / 4095.0 * 100.0] in single precision, lie in [0, 100] and
    are within 2^-17 of the exact quotient [100 * raw / 4095]. *)
Theorem percentuais_da_leitura (ry rx : Z) :
  0 <= ry <= 4095 -> 0 <= rx <= 4095 ->
  let d := vJoystickTask_dados ry rx in
  nivel_agua d = pct_spec ry
  /\ volume_chuva d = pct_spec rx
  /\ em_0_100 (nivel_agua d) = true
  /\ em_0_100 (volume_chuva d) = true
  /\ erro_ate 17 ry (nivel_agua d) = true
  /\ erro_ate 17 rx (volume_chuva d) = true.
Proof.
  intros Hy Hx d. subst d. cbn [vJoystickTask_dados nivel_agua volume_chuva].
  repeat split;
    auto using percentual_pct_spec, percentual_em_0_100, percentual_erro.
Qed.

Lemma percentuais_da_leitura_witness :
  let d := vJoystickTask_dados 3071 409 in
  nivel_agua d = pct_spec 3071
  /\ volume_chuva d = pct_spec 409
  /\ em_0_100 (nivel_agua d) = true
  /\ em_0_100 (volume_chuva d) = true
  /\ erro_ate 17 3071 (nivel_agua d) = true
  /\ erro_ate 17 409 (volume_chuva d) = true.
Proof. apply (percentuais_da_leitura 3071 409); lia. Defined.

(** ** The queue *)

Section Subsequencia.
Context {A : Type}.
Implicit Types l : list A.

Lemma sub_refl l : subsequencia l l.
Proof. induction l; [apply sub_nil | apply sub_toma; assumption]. Qed.

Lemma sub_vazia l : subsequencia [] l.
Proof. induction l; constructor; assumption. Qed.

Lemma sub_trans l1 l2 l3 :
  subsequencia l1 l2 -> subsequencia l2 l3 -> subsequencia l1 l3.
Proof.
  intros H12 H23. revert l1 H12.
  induction H23 as [|x l2 l3 _ IH|x l2 l3 _ IH]; intros l1 H12.
  - assumption.
  - constructor. apply IH, H12.
  - inversion H12; subst.
    + apply sub_salta, IH. assumption.
    + apply sub_toma, IH. assumption.
Qed.

Lemma sub_app l1 l2 l : subsequencia l1 l2 -> subsequencia (l1 ++ l) (l2 ++ l).
Proof.
  induction 1; cbn; [apply sub_refl | apply sub_salta | apply sub_toma];
    assumption.
Qed.

Lemma sub_app_r l1 l2 l : subsequencia l1 l2 -> subsequencia l1 (l2 ++ l).
Proof.
  induction 1; cbn; [apply sub_vazia | apply sub_salta | apply sub_toma];
    assumption.
Qed.

Lemma sub_prefixo l1 l2 : subsequencia l1 (l1 ++ l2).
Proof. apply sub_app_r, sub_refl. Qed.

Lemma sub_sem_meio l1 x l2 : subsequencia (l1 ++ l2) (l1 ++ x :: l2).
Proof.
  induction l1; cbn.
  - apply sub_salta, sub_refl.
  - apply sub_toma. assumption.
Qed.
Lemma sub_In l1 l2 (x : A) : subsequencia l1 l2 -> In x l1 -> In x l2.
Proof.
  induction 1 as [|y l1 l2 _ IH|y l1 l2 _ IH]; cbn; intuition.
Qed.
End Subsequencia.

Lemma em_ordem_main : em_ordem main.
Proof. intros t. cbn. constructor. Qed.

Lemma em_ordem_passo (s : sistema) (p : passo) :
  em_ordem s -> em_ordem (executa_passo s p).
Proof.
  intros Inv. destruct p as [raw_y raw_x | t]; cbn [executa_passo].
  - unfold vJoystickTask_ciclo, xQueueSend.
    destruct (Nat.ltb _ _); cbn.
    + intros t. cbn. rewrite app_assoc. apply sub_app, Inv.
    + intros t. cbn. apply sub_app_r, Inv.
  - unfold recebe, xQueueReceive.
    destruct (itens (xQueueSensores s)) as [|item resto] eqn:E; cbn.
    + assumption.
    + intros t'. cbn. specialize (Inv t'). rewrite E in Inv.
      destruct (tarefa_eqb t t').
      * rewrite <- app_assoc. exact Inv.
      * eapply sub_trans; [apply sub_sem_meio | exact Inv].
Qed.

Lemma em_ordem_executa (ps : list passo) (s : sistema) :
  em_ordem s -> em_ordem (executa s ps).
Proof.
  revert s. induction ps as [|p ps IH]; intros s Inv; cbn.
  - assumption.
  - apply IH, em_ordem_passo, Inv.
Qed.

(** The slots are never exceeded. *)
Lemma xQueueSend_limite (q : QueueHandle_t) (d : dados_sensor_t) r q' :
  (length (itens q) <= uxLength q)%nat ->
  xQueueSend q d 0 = Retorna r q' ->
  uxLength q' = uxLength q /\ (length (itens q') <= uxLength q')%nat.
Proof.
  unfold xQueueSend. intros Hq.
  destruct (Nat.ltb_spec (length (itens q)) (uxLength q)); cbn; intros E;
    inversion E; subst; cbn.
  - rewrite length_app. cbn. lia.
  - lia.
Qed.



Lemma executa_cons (s : sistema) (p : passo) (ps : list passo) :
  executa s (p :: ps) = executa (executa_passo s p) ps.
Proof. reflexivity. Qed.




(** Every reading goes to one consumer at most: deliveries and waiting
    items together never outnumber the readings produced. *)
Lemma entregas_passo (s : sistema) (p : passo) :
  (entregas s + length (itens (xQueueSensores s)) <= length (produzidos s))%nat ->
  (entregas (executa_passo s p)
   + length (itens (xQueueSensores (executa_passo s p)))
   <= length (produzidos (executa_passo s p)))%nat.
Proof.
  intros H. destruct p as [raw_y raw_x | t]; cbn [executa_passo].
  - unfold vJoystickTask_ciclo, xQueueSend.
    destruct (Nat.ltb _ _); cbn; unfold entregas in *; cbn;
      rewrite ?length_app; cbn; lia.
  - unfold recebe, xQueueReceive.
    destruct (itens (xQueueSensores s)) as [|item resto] eqn:E; cbn.
    + rewrite E. assumption.
    + unfold entregas in *. cbn in *.
      destruct t; cbn; rewrite ?length_app; cbn; lia.
Qed.

Lemma entregas_nao_excedem_producao (ps : list passo) :
  (entregas (executa main ps) + length (itens (xQueueSensores (executa main ps)))
   <= length (produzidos (executa main ps)))%nat.
Proof.
  unfold executa.
  assert (H : (entregas main + length (itens (xQueueSensores main))
               <= length (produzidos main))%nat) by (cbn; lia).
  revert H. generalize main. induction ps as [|p ps IH]; intros s H; cbn.
  - assumption.
  - apply IH, entregas_passo, H.
Qed.

(** Everything the sampler has produced came out of the sampling loop. *)
Lemma produzidos_amostrados (ps : list passo) (s : sistema) :
  Forall amostrada (produzidos s) ->
  Forall amostrada (produzidos (executa s ps)).
Proof.
  revert s. induction ps as [|p ps IH]; intros s H; [exact H|].
  rewrite executa_cons. apply IH.
  destruct p as [raw_y raw_x | t]; cbn [executa_passo].
  - unfold vJoystickTask_ciclo.
    destruct (xQueueSend _ _ _); [|exact H].
    cbn. apply Forall_app. split; [exact H|].
    constructor; [|constructor]. exists raw_y, raw_x. reflexivity.
  - unfold recebe.
    destruct (xQueueReceive _ _) as [[r [item|]] q|]; cbn; exact H.
Qed.

Lemma recebido_amostrado (ps : list passo) (t : tarefa) (d : dados_sensor_t) :
  In d (recebidos (executa main ps) t) -> amostrada d.
Proof.
  intros Hin.
  pose proof (em_ordem_executa ps main em_ordem_main t) as Hsub.
  pose proof (produzidos_amostrados ps main (Forall_nil _)) as Hprod.
  rewrite Forall_forall in Hprod. apply Hprod.
  eapply sub_In; [exact Hsub|]. apply in_or_app. left. exact Hin.
Qed.

(** C1. Every reading the sampler produces has its alert flag equal to
    [level >= 70.0 || rainfall >= 80.0], whatever the samples, and so has
    every reading a consumer receives, under every schedule; the test is
    false at 69.99 and at 79.99 and true at 70.00 and at 80.00. *)
Theorem alerta_disjuncao_limiares :
  (forall raw_y raw_x : Z,
      let d := vJoystickTask_dados raw_y raw_x in
      alerta d = F32.ge (nivel_agua d) (F32.lit 700 1)
                 || F32.ge (volume_chuva d) (F32.lit 800 1))
  /\ (forall (ps : list passo) (t : tarefa) (d : dados_sensor_t),
         In d (recebidos (executa main ps) t) ->
         alerta d = F32.ge (nivel_agua d) (F32.lit 700 1)
                    || F32.ge (volume_chuva d) (F32.lit 800 1))
  /\ limiar_ultrapassado (F32.lit 6999 2) (F32.of_Z 0) = false
  /\ limiar_ultrapassado (F32.lit 7000 2) (F32.of_Z 0) = true
  /\ limiar_ultrapassado (F32.of_Z 0) (F32.lit 7999 2) = false
  /\ limiar_ultrapassado (F32.of_Z 0) (F32.lit 8000 2) = true
  /\ limiar_ultrapassado (F32.lit 6999 2) (F32.lit 7999 2) = false.
Proof.
  assert (H : forall raw_y raw_x : Z,
             let d := vJoystickTask_dados raw_y raw_x in
             alerta d = F32.ge (nivel_agua d) (F32.lit 700 1)
                        || F32.ge (volume_chuva d) (F32.lit 800 1)).
  { intros raw_y raw_x d. subst d.
    cbn [vJoystickTask_dados alerta nivel_agua volume_chuva].
    unfold limiar_ultrapassado.
    replace (F32.lit 700 1) with LIMIAR_AGUA by (vm_compute; reflexivity).
    replace (F32.lit 800 1) with LIMIAR_CHUVA by (vm_compute; reflexivity).
    reflexivity. }
  split; [exact H | split].
  - intros ps t d Hin.
    destruct (recebido_amostrado ps t d Hin) as (raw_y & raw_x & ->).
    apply H.
  - repeat split; vm_compute; reflexivity.
Qed.

Lemma alerta_disjuncao_limiares_witness :
  let d := vJoystickTask_dados 2867 0 in
  alerta d = F32.ge (nivel_agua d) (F32.lit 700 1)
             || F32.ge (volume_chuva d) (F32.lit 800 1).
Proof.
  intros d.
  destruct alerta_disjuncao_limiares as (_ & H & _).
  apply (H [Amostra 2867 0; Le LedRgb] LedRgb d).
  cbn. left. reflexivity.
Defined.

(** With a waiting time the same call on a full queue does block: the
    zero in [xQueueSend(xQueueSensores, &dados, 0)] is what keeps the
    sampler running. *)
Lemma envio_com_espera_bloqueia (d : dados_sensor_t) :
  xQueueSend {| uxLength := 5; itens := [d; d; d; d; d] |} d portMAX_DELAY
  = Bloqueia.
Proof. reflexivity. Qed.

(** C7. The send of the sampler never blocks: in every state of the
    queue, a full one included, the call returns, and with consumers that
    never read the sampler completes every one of its cycles; a cycle
    changes nothing of what the consumers hold. *)
Theorem envio_nunca_bloqueia (q : QueueHandle_t) (amostras : list (Z * Z)) :
  (forall d, exists r q', xQueueSend q d 0 = Retorna r q')
  /\ (exists rs q', vJoystickTask q amostras = Some (rs, q')
                    /\ length rs = length amostras)
  /\ (forall s raw_y raw_x,
         exists s', vJoystickTask_ciclo s raw_y raw_x = Some s'
                    /\ recebidos s' = recebidos s).
Proof.
  assert (Hsend : forall q0 d, exists r q', xQueueSend q0 d 0 = Retorna r q').
  { intros q0 d. unfold xQueueSend.
    destruct (Nat.ltb _ _); cbn; eauto. }
  split; [apply Hsend | split].
  - revert q. induction amostras as [|[raw_y raw_x] resto IH]; intros q.
    + exists [], q. split; reflexivity.
    + destruct (Hsend q (vJoystickTask_dados raw_y raw_x)) as (r & q1 & E).
      destruct (IH q1) as (rs & q' & E' & Hlen).
      exists (r :: rs), q'. cbn [vJoystickTask]. rewrite E, E'.
      split; [reflexivity | cbn; congruence].
  - intros s raw_y raw_x. unfold vJoystickTask_ciclo.
    destruct (Hsend (xQueueSensores s) (vJoystickTask_dados raw_y raw_x))
      as (r & q1 & E).
    rewrite E. eexists. split; reflexivity.
Qed.



(** C6, as stated, fails: a reading has no sequence field, and two
    cycles on equal samples create equal readings, so nothing computed
    from a reading can number the cycles. *)
Lemma leitura_sem_sequencia :
  produzidos (executa main [Amostra 0 0; Amostra 0 0])
  = [vJoystickTask_dados 0 0; vJoystickTask_dados 0 0]
  /\ ~ exists sequence : dados_sensor_t -> Z,
         forall (ps : list passo) (k : nat) (d : dados_sensor_t),
           nth_error (produzidos (executa main ps)) k = Some d ->
           sequence d = Z.of_nat k.
Proof.
  split; [reflexivity|].
  intros [sequence H].
  pose proof (H [Amostra 0 0; Amostra 0 0] 0%nat _ eq_refl) as H0.
  pose proof (H [Amostra 0 0; Amostra 0 0] 1%nat _ eq_refl) as H1.
  rewrite H0 in H1. discriminate.
Qed.

(** C6, amended. Under every schedule the readings a consumer has
    received are, in the order received, a subsequence of the readings
    the sampler created. *)
Theorem recebidos_em_ordem (ps : list passo) (t : tarefa) :
  subsequencia (recebidos (executa main ps) t) (produzidos (executa main ps)).
Proof.
  pose proof (em_ordem_executa ps main em_ordem_main t) as H.
  eapply sub_trans; [apply sub_prefixo | exact H].
Qed.

(** C2, as stated, fails: one alert reading is sent and the four
    consumers call receive in turn. The display task takes it; the queue
    is then empty, the other three tasks block and have received
    nothing. *)
Theorem leitura_entregue_a_uma_tarefa :
  let d := vJoystickTask_dados 4095 0 in
  let s := executa main [Amostra 4095 0; Le Display; Le LedRgb; Le Buzzer; Le Matriz] in
  alerta d = true
  /\ recebidos s Display = [d]
  /\ recebidos s LedRgb = []
  /\ recebidos s Buzzer = []
  /\ recebidos s Matriz = []
  /\ recebe (executa main [Amostra 4095 0; Le Display]) LedRgb = None
  /\ dados_de s LedRgb = None.
Proof. repeat split; vm_compute; reflexivity. Qed.

Lemma passo_Le_vazia (s : sistema) (t : tarefa) :
  itens (xQueueSensores s) = [] ->
  executa_passo s (Le t) = s
  /\ xQueueReceive (xQueueSensores s) portMAX_DELAY = Bloqueia.
Proof.
  intros E. cbn [executa_passo]. unfold recebe, xQueueReceive. rewrite E.
  split; reflexivity.
Qed.

Lemma passo_Le_item (s : sistema) (t : tarefa) item resto :
  itens (xQueueSensores s) = item :: resto ->
  executa_passo s (Le t)
  = {| xQueueSensores := {| uxLength := uxLength (xQueueSensores s);
                            itens := resto |};
       recebidos := fun t' => if tarefa_eqb t t'
                              then recebidos s t' ++ [item]
                              else recebidos s t';
       produzidos := produzidos s |}
  /\ xQueueReceive (xQueueSensores s) portMAX_DELAY
     = Retorna (pdPASS, Some item)
               {| uxLength := uxLength (xQueueSensores s); itens := resto |}.
Proof.
  intros E. cbn [executa_passo]. unfold recebe, xQueueReceive. rewrite E.
  split; reflexivity.
Qed.

Lemma tarefa_eqb_sym (a b : tarefa) : tarefa_eqb a b = tarefa_eqb b a.
Proof. destruct a, b; reflexivity. Qed.

Lemma recebidos_registro (ps : list passo) (s : sistema) (t : tarefa) :
  recebidos (executa s ps) t = recebidos s t ++ recebidos_por t (registro s ps).
Proof.
  revert s. induction ps as [|p ps IH]; intros s.
  - cbn. rewrite app_nil_r. reflexivity.
  - rewrite executa_cons, IH. cbn [registro].
    destruct p as [raw_y raw_x | t0].
    + cbn [app executa_passo]. unfold vJoystickTask_ciclo.
      destruct (xQueueSend _ _ _); reflexivity.
    + destruct (itens (xQueueSensores s)) as [|item resto] eqn:E.
      * destruct (passo_Le_vazia s t0 E) as [Es Er]. rewrite Es, Er.
        reflexivity.
      * destruct (passo_Le_item s t0 item resto E) as [Es Er]. rewrite Es, Er.
        unfold recebidos_por. cbn [recebidos app filter fst].
        rewrite (tarefa_eqb_sym t t0).
        destruct (tarefa_eqb t0 t); cbn [map snd]; rewrite <- ?app_assoc;
          reflexivity.
Qed.

Lemma registro_em_ordem (ps : list passo) (s : sistema) (antes : list dados_sensor_t) :
  subsequencia (antes ++ itens (xQueueSensores s)) (produzidos s) ->
  subsequencia
    (antes ++ map snd (registro s ps) ++ itens (xQueueSensores (executa s ps)))
    (produzidos (executa s ps)).
Proof.
  revert s antes. induction ps as [|p ps IH]; intros s antes H.
  - exact H.
  - rewrite executa_cons. cbn [registro]. rewrite map_app, <- app_assoc.
    destruct p as [raw_y raw_x | t].
    + cbn [map app]. apply IH. cbn [executa_passo].
      unfold vJoystickTask_ciclo, xQueueSend.
      destruct (Nat.ltb _ _); cbn.
      * rewrite app_assoc. apply sub_app, H.
      * apply sub_app_r, H.
    + destruct (itens (xQueueSensores s)) as [|item resto] eqn:E.
      * destruct (passo_Le_vazia s t E) as [Es Er]. rewrite Es, Er.
        cbn [map app]. apply IH. rewrite E. exact H.
      * destruct (passo_Le_item s t item resto E) as [Es Er]. rewrite Es, Er.
        cbn [map app snd].
        match goal with
        | |- subsequencia (antes ++ item :: ?Y) _ =>
            change (antes ++ item :: Y) with (antes ++ [item] ++ Y);
            rewrite (app_assoc antes [item] Y)
        end.
        apply IH. cbn. rewrite <- app_assoc. exact H.
Qed.

(** C2, amended. A reading goes to one consumer only. After a single
    send, whatever the samples, the first task [t] to call receive gets
    the reading and the queue is empty: every task that calls receive
    next blocks, and no other task has received anything. Under every
    schedule what each task has received is its part of one record of
    deliveries, and that record, followed by what still waits in the
    queue, is a subsequence of the readings produced: each reading
    produced is delivered at most once. *)
Theorem leitura_para_um_consumidor (raw_y raw_x : Z) (t t' : tarefa)
    (ps : list passo) :
  let d := vJoystickTask_dados raw_y raw_x in
  let s := executa main [Amostra raw_y raw_x; Le t] in
  recebidos s t = [d]
  /\ recebidos s t' = (if tarefa_eqb t t' then [d] else [])
  /\ itens (xQueueSensores s) = []
  /\ recebe s t' = None
  /\ recebidos (executa main ps) t' = recebidos_por t' (registro main ps)
  /\ subsequencia
       (map snd (registro main ps) ++ itens (xQueueSensores (executa main ps)))
       (produzidos (executa main ps)).
Proof.
  cbn zeta.
  split; [destruct t; reflexivity|].
  split; [destruct t, t'; reflexivity|].
  split; [reflexivity|].
  split; [reflexivity|].
  split.
  - apply (recebidos_registro ps main t').
  - apply (registro_em_ordem ps main []). cbn. apply sub_nil.
Qed.

(** ** vBuzzerTask *)

(** The buzzer output is the timeline of the state machine run on the
    alert flags received, whatever the level before. *)
Lemma vBuzzerTask_refina (rs : list dados_sensor_t) (nivel0 : Z) :
  patamares BUZZER nivel0 (vBuzzerTask rs)
  = map alarm_patamar (alarm_run (map alerta rs)).
Proof.
  revert nivel0. induction rs as [|r rs IH]; intros nivel0; [reflexivity|].
  unfold vBuzzerTask, alarm_run in *. cbn [flat_map map].
  rewrite map_app, <- (IH 0).
  unfold vBuzzerTask_iter, alarm_observe.
  destruct (alerta r); cbn; rewrite ?(IH nivel0), ?(IH 0); reflexivity.
Qed.

Lemma alarm_run_alerta (ds : list dados_sensor_t) :
  Forall (fun x => alerta x = true) ds ->
  alarm_run (map alerta ds) = concat (repeat [BeepOn; BeepOff] (length ds)).
Proof.
  induction 1 as [|x l Hx _ IH]; [reflexivity|].
  unfold alarm_run in *. cbn. rewrite Hx, IH. reflexivity.
Qed.

Lemma nivel_pwm_app (gpio nivel0 : Z) (evs1 evs2 : list evento) :
  nivel_pwm gpio nivel0 (evs1 ++ evs2)
  = nivel_pwm gpio (nivel_pwm gpio nivel0 evs1) evs2.
Proof.
  revert nivel0. induction evs1 as [|e evs1 IH]; intros nivel0; [reflexivity|].
  destruct e; cbn; apply IH.
Qed.

Lemma vBuzzerTask_iter_patamares (dados : dados_sensor_t) (nivel0 : Z) :
  patamares BUZZER nivel0 (vBuzzerTask_iter dados)
  = map alarm_patamar (alarm_observe (alerta dados))
  /\ nivel_pwm BUZZER nivel0 (vBuzzerTask_iter dados) = 0.
Proof.
  unfold vBuzzerTask_iter, alarm_observe. destruct (alerta dados);
    split; reflexivity.
Qed.

Lemma linha_do_tempo_cons (nivel0 espera : Z) (dados : dados_sensor_t)
    (resto : list (Z * dados_sensor_t)) :
  linha_do_tempo nivel0 ((espera, dados) :: resto)
  = (nivel0, espera)
      :: map alarm_patamar (alarm_observe (alerta dados))
      ++ linha_do_tempo 0 resto.
Proof.
  cbn [linha_do_tempo].
  destruct (vBuzzerTask_iter_patamares dados nivel0) as [-> ->]. reflexivity.
Qed.

Lemma linha_do_tempo_app (rs1 rs2 : list (Z * dados_sensor_t)) :
  linha_do_tempo 0 (rs1 ++ rs2) = linha_do_tempo 0 rs1 ++ linha_do_tempo 0 rs2.
Proof.
  induction rs1 as [|[w d] rs1 IH]; [reflexivity|].
  cbn [app]. rewrite !linha_do_tempo_cons, IH, app_comm_cons, app_assoc.
  reflexivity.
Qed.

Lemma linha_do_tempo_alerta (rs : list (Z * dados_sensor_t)) :
  Forall (fun r => alerta (snd r) = true) rs ->
  linha_do_tempo 0 rs
  = flat_map (fun r => [(0, fst r); (6250, 200); (0, 300)]) rs.
Proof.
  induction 1 as [|[w d] rs Hd _ IH]; [reflexivity|].
  cbn [snd] in Hd. rewrite linha_do_tempo_cons, Hd, IH. reflexivity.
Qed.

(** C5, as stated, fails: the off hold is not 300 ms and the cycle is not
    kept while the alert lasts. Eleven samples, all with the alert set:
    the buzzer takes the first, the other tasks take the rest during its
    500 ms, and at the end of the off hold it finds the queue empty and
    blocks. With 700 ms blocked there, the silence between two tones is
    1000 ms. *)
Lemma alarme_silencio_prolongado :
  let a := vJoystickTask_dados 4095 0 in
  let s := executa main [Amostra 4095 0; Le Buzzer;
                         Amostra 4095 0; Le LedRgb; Amostra 4095 0; Le Display;
                         Amostra 4095 0; Le LedRgb; Amostra 4095 0; Le Matriz;
                         Amostra 4095 0; Le LedRgb] in
  alerta a = true
  /\ Forall (fun d => alerta d = true) (produzidos s)
  /\ recebidos s Buzzer = [a]
  /\ recebe s Buzzer = None
  /\ funde (linha_do_tempo 0 [(0, a); (700, a)])
     = [(0, 0); (6250, 200); (0, 1000); (6250, 200); (0, 300)].
Proof.
  cbn zeta. split; [reflexivity|]. split; [|repeat split; reflexivity].
  vm_compute. repeat constructor.
Qed.

(** C5, amended. The alarm starts in Silent with nothing driven. The
    task sets the PWM period to 12500 at start; BeepOn drives half of it
    (6250) and BeepOff and Silent drive 0. In time, with the waits in
    [xQueueReceive] counted: before every reading the task is blocked,
    for as long as the queue is empty, at level 0 (at the level found, at
    the first one); a reading with the alert set then gives 6250 for
    exactly 200 ms and 0 for 300 ms, one such cycle per reading received
    for any number of readings, and a reading without alert gives 0 for
    500 ms. So the tone lasts 200 ms per alert reading, while the silence
    after it lasts 300 ms and the idle hold 500 ms plus the wait for the
    next reading: these two are lower bounds, and the task waits for the
    queue instead of polling it. *)
Theorem alarme_cadencia_com_espera (rs : list (Z * dados_sensor_t))
    (espera : Z) (d : dados_sensor_t) (nivel0 : Z) :
  Forall (fun r => alerta (snd r) = true) rs ->
  alerta d = false ->
  0 <= espera ->
  alarm_initial = Silent
  /\ linha_do_tempo nivel0 [] = []
  /\ nivel_pwm BUZZER 0 vBuzzerTask_init = alarm_duty alarm_initial
  /\ wrap_pwm BUZZER vBuzzerTask_init = Some 12500
  /\ wrap_pwm BUZZER vBuzzerTask_init = Some (2 * alarm_duty BeepOn)
  /\ alarm_duty BeepOn = 6250 /\ alarm_duty BeepOff = 0 /\ alarm_duty Silent = 0
  /\ alarm_hold BeepOn = 200 /\ alarm_hold BeepOff = 300
  /\ alarm_hold Silent = 500
  /\ (forall n0 w0 d0 resto,
         linha_do_tempo n0 ((w0, d0) :: resto)
         = (n0, w0) :: map alarm_patamar (alarm_observe (alerta d0))
                    ++ linha_do_tempo 0 resto)
  /\ linha_do_tempo 0 rs
     = flat_map (fun r => [(0, fst r); (6250, 200); (0, 300)]) rs
  /\ tempo_ativo (linha_do_tempo 0 rs) = 200 * Z.of_nat (length rs)
  /\ linha_do_tempo 0 (rs ++ [(espera, d)])
     = flat_map (fun r => [(0, fst r); (6250, 200); (0, 300)]) rs
       ++ [(0, espera); (0, 500)]
  /\ funde [(0, 300); (0, espera)] = [(0, 300 + espera)]
  /\ funde [(0, 500); (0, espera)] = [(0, 500 + espera)]
  /\ 300 <= 300 + espera /\ 500 <= 500 + espera
  /\ nivel_pwm BUZZER nivel0 (vBuzzerTask_iter d) = 0.
Proof.
  intros Hrs Hd Hw.
  pose proof (linha_do_tempo_alerta rs Hrs) as Hal.
  repeat match goal with |- _ /\ _ => split end;
    try reflexivity; try lia.
  - intros n0 w0 d0 resto. apply linha_do_tempo_cons.
  - exact Hal.
  - rewrite Hal. clear. induction rs as [|[w x] rs IH]; [reflexivity|].
    cbn [flat_map length app tempo_ativo Z.eqb]. rewrite Nat2Z.inj_succ.
    cbn [tempo_ativo Z.eqb] in IH. lia.
  - rewrite linha_do_tempo_app, Hal, linha_do_tempo_cons, Hd. reflexivity.
  - apply vBuzzerTask_iter_patamares.
Qed.

Lemma alarme_cadencia_com_espera_witness :
  let a := vJoystickTask_dados 4095 0 in
  let n := vJoystickTask_dados 0 0 in
  linha_do_tempo 0 ([(0, a); (700, a)] ++ [(100, n)])
  = [(0, 0); (6250, 200); (0, 300); (0, 700); (6250, 200); (0, 300);
     (0, 100); (0, 500)].
Proof.
  intros a n.
  assert (Ha : Forall (fun r => alerta (snd r) = true) [(0, a); (700, a)]).
  { repeat constructor. }
  assert (Hn : alerta n = false) by reflexivity.
  assert (Hw : 0 <= 100) by lia.
  destruct (alarme_cadencia_com_espera [(0, a); (700, a)] 100 n 0 Ha Hn Hw)
    as (_ & _ & _ & _ & _ & _ & _ & _ & _ & _ & _ & _ & _ & _ & H & _).
  exact H.
Defined.

(** ** vLedRgbTask *)

(** C8. Whatever the levels before, a pass of the LED task leaves red at
    255 (the PWM period set at start) and green and blue at 0 when the
    alert is set, and red at 0, green at 255 and blue at 0 otherwise. *)
Theorem led_rgb_por_alerta (dados : dados_sensor_t) (r0 g0 b0 : Z) :
  let evs := vLedRgbTask_iter dados in
  nivel_pwm LED_R r0 evs = (if alerta dados then 255 else 0)
  /\ nivel_pwm LED_G g0 evs = (if alerta dados then 0 else 255)
  /\ nivel_pwm LED_B b0 evs = 0
  /\ In (pwm_set_wrap LED_R 255) vLedRgbTask_init
  /\ In (pwm_set_wrap LED_G 255) vLedRgbTask_init.
Proof.
  cbn zeta. unfold vLedRgbTask_iter.
  destruct (alerta dados); cbn; intuition.
Qed.

(** ** vMatrizLedTask *)

Lemma palavras_laco_matriz (n : nat) (cor : Z) :
  palavras (laco_matriz n cor) = repeat cor n.
Proof.
  induction n as [|n IH]; [reflexivity|].
  cbn. unfold palavras in IH. rewrite IH. reflexivity.
Qed.

Lemma cores_da_matriz :
  (canal_vermelho COR_VERMELHO, canal_verde COR_VERMELHO, canal_azul COR_VERMELHO)
  = (255, 0, 0)
  /\ (canal_vermelho COR_VERDE, canal_verde COR_VERDE, canal_azul COR_VERDE)
     = (0, 255, 0).
Proof. split; reflexivity. Qed.

(** C9. A pass of the matrix task pushes 25 words, one per LED, all equal:
    the red word 0x00FF0000 when the alert is set and the green word
    0xFF000000 otherwise. *)
Theorem matriz_por_alerta (dados : dados_sensor_t) :
  let cor := if alerta dados then 0x00FF0000 else 0xFF000000 in
  palavras (vMatrizLedTask_iter dados) = repeat cor 25
  /\ length (palavras (vMatrizLedTask_iter dados)) = 25%nat
  /\ Forall (fun w => w = cor) (palavras (vMatrizLedTask_iter dados)).
Proof.
  cbn zeta.
  assert (H : palavras (vMatrizLedTask_iter dados)
              = repeat (if alerta dados then 0x00FF0000 else 0xFF000000) 25).
  { unfold vMatrizLedTask_iter, palavras. rewrite flat_map_app.
    fold (palavras (laco_matriz NUM_LEDS
                      (if alerta dados then COR_VERMELHO else COR_VERDE))).
    rewrite palavras_laco_matriz. cbn [flat_map]. rewrite app_nil_r.
    reflexivity. }
  rewrite H. split; [reflexivity|]. split.
  - apply repeat_length.
  - apply Forall_forall. intros w Hw. eapply repeat_spec, Hw.
Qed.

(** ** vDisplayTask *)

(** Of the samples the ADC can return, only those up to 407 (below
    9.95%) print in four characters and fit the buffer with their NUL. *)
Lemma cabe_no_buffer_amostra (raw : Z) :
  0 <= raw <= 4095 ->
  cabe_no_buffer (sprintf_1f_pct (percentual raw)) = (raw <=? 407).
Proof.
  intros H. apply eqb_prop. revert raw H.
  apply (para_toda_leitura
           (fun r => eqb (cabe_no_buffer (sprintf_1f_pct (percentual r)))
                         (r <=? 407))).
  vm_compute. reflexivity.
Qed.

(** C10 at the failing input: the reading of the samples 3071 and 409 has
    both percentages in [0, 100]; they print as 75.0% and 10.0%, six bytes
    each with the NUL, and the sample 4095 prints as 100.0%, seven bytes:
    more than the five of the buffer. *)
Theorem sprintf_excede_buffer :
  let d := vJoystickTask_dados 3071 409 in
  em_0_100 (nivel_agua d) = true
  /\ em_0_100 (volume_chuva d) = true
  /\ sprintf_1f_pct (nivel_agua d) = "75.0%"%string
  /\ sprintf_1f_pct (volume_chuva d) = "10.0%"%string
  /\ bytes_escritos (sprintf_1f_pct (nivel_agua d)) = 6%nat
  /\ bytes_escritos (sprintf_1f_pct (volume_chuva d)) = 6%nat
  /\ cabe_no_buffer (sprintf_1f_pct (nivel_agua d)) = false
  /\ cabe_no_buffer (sprintf_1f_pct (volume_chuva d)) = false
  /\ sprintf_1f_pct (percentual 4095) = "100.0%"%string
  /\ bytes_escritos (sprintf_1f_pct (percentual 4095)) = 7%nat
  /\ In (ssd1306_draw_string "75.0%" 10 52) (vDisplayTask_iter d).
Proof.
  repeat split; try (vm_compute; reflexivity).
  vm_compute. intuition.
Qed.

(** * Further properties *)

(** ** The sampler on the values of the ADC *)

(** X1. On samples of the 12-bit ADC the alert is a test on the raw
    values: it is set exactly when the level sample is at least 2867 or
    the rain sample at least 3276. *)
Theorem alerta_limiares_brutos (raw_y raw_x : Z) :
  0 <= raw_y <= 4095 -> 0 <= raw_x <= 4095 ->
  alerta (vJoystickTask_dados raw_y raw_x)
  = (2867 <=? raw_y) || (3276 <=? raw_x).
Proof. apply alerta_por_amostra. Qed.

Lemma alerta_limiares_brutos_witness :
  alerta (vJoystickTask_dados 2866 3276) = (2867 <=? 2866) || (3276 <=? 3276).
Proof. apply (alerta_limiares_brutos 2866 3276); lia. Defined.

(** Comparison of floats in normal form is comparison of their keys. *)
Lemma SFcompare_chave (x y : F32.float) :
  forma_normal x = true -> forma_normal y = true ->
  SFcompare x y = Some (chave x ?= chave y).
Proof.
  assert (P24 : 2 ^ 24 = 16777216) by reflexivity.
  destruct x as [sx|sx| |[|] mx ex]; try discriminate;
    destruct y as [sy|sy| |[|] my ey]; try discriminate;
    cbn [forma_normal chave SFcompare]; rewrite ?P24; intros Hx Hy;
    rewrite ?andb_true_iff, ?Z.ltb_lt in *.
  - reflexivity.
  - f_equal. symmetry. apply Z.compare_lt_iff. lia.
  - f_equal. symmetry. apply Z.compare_gt_iff. lia.
  - f_equal. change (Pos.compare_cont Eq mx my) with (Z.pos mx ?= Z.pos my).
    destruct (Z.compare_spec ex ey) as [E|L|G].
    + subst. destruct (Z.compare_spec (Z.pos mx) (Z.pos my)) as [E'|L'|G'];
        symmetry.
      * apply Z.compare_eq_iff. lia.
      * apply Z.compare_lt_iff. lia.
      * apply Z.compare_gt_iff. lia.
    + symmetry. apply Z.compare_lt_iff. lia.
    + symmetry. apply Z.compare_gt_iff. lia.
Qed.

Lemma percentual_vizinhos (raw : Z) :
  0 <= raw <= 4095 ->
  forma_normal (percentual raw) = true
  /\ forma_normal (percentual (raw + 1)) = true
  /\ chave (percentual raw) < chave (percentual (raw + 1)).
Proof.
  intros H.
  pose proof (para_toda_leitura
                (fun r => forma_normal (percentual r)
                          && forma_normal (percentual (r + 1))
                          && (chave (percentual r) <? chave (percentual (r + 1))))) as Hall.
  cbv beta in Hall.
  specialize (Hall ltac:(vm_compute; reflexivity) raw H).
  rewrite !andb_true_iff, Z.ltb_lt in Hall. tauto.
Qed.

Lemma chave_crescente (n : nat) (raw : Z) :
  0 <= raw -> raw + 1 + Z.of_nat n <= 4095 ->
  chave (percentual raw) < chave (percentual (raw + 1 + Z.of_nat n)).
Proof.
  induction n as [|n IH]; intros H0 H1.
  - replace (raw + 1 + Z.of_nat 0) with (raw + 1) by lia.
    apply percentual_vizinhos. lia.
  - replace (raw + 1 + Z.of_nat (S n)) with (raw + 1 + Z.of_nat n + 1) by lia.
    eapply Z.lt_trans; [apply IH; lia|].
    apply percentual_vizinhos. lia.
Qed.

(** X2. The conversion to a percentage is strictly increasing on the
    samples of the ADC: a larger sample gives a larger percentage in the
    C comparison, so different samples never give the same percentage. *)
Theorem percentual_crescente (raw1 raw2 : Z) :
  0 <= raw1 -> raw1 < raw2 -> raw2 <= 4095 ->
  menor_f32 (percentual raw1) (percentual raw2) = true
  /\ F32.ge (percentual raw1) (percentual raw2) = false
  /\ percentual raw1 <> percentual raw2.
Proof.
  intros H0 H1 H2.
  pose proof (chave_crescente (Z.to_nat (raw2 - raw1 - 1)) raw1 H0) as Hk.
  replace (raw1 + 1 + Z.of_nat (Z.to_nat (raw2 - raw1 - 1))) with raw2 in Hk by lia.
  specialize (Hk ltac:(lia)).
  destruct (percentual_vizinhos raw1 ltac:(lia)) as (N1 & _ & _).
  assert (N2 : forma_normal (percentual raw2) = true)
    by (apply percentual_vizinhos; lia).
  assert (L : menor_f32 (percentual raw1) (percentual raw2) = true).
  { unfold menor_f32, SFltb. rewrite (SFcompare_chave _ _ N1 N2).
    pose proof Hk as Hlt. unfold Z.lt in Hlt. rewrite Hlt. reflexivity. }
  repeat split.
  - exact L.
  - unfold F32.ge, SFleb. rewrite (SFcompare_chave _ _ N2 N1).
    pose proof (Z.lt_gt _ _ Hk) as Hgt. unfold Z.gt in Hgt. rewrite Hgt.
    reflexivity.
  - intros E. rewrite E in Hk. lia.
Qed.

Lemma percentual_crescente_witness :
  menor_f32 (percentual 2866) (percentual 2867) = true
  /\ F32.ge (percentual 2866) (percentual 2867) = false
  /\ percentual 2866 <> percentual 2867.
Proof. apply (percentual_crescente 2866 2867); lia. Defined.

(** ** What the display prints *)

(** X3. For every sample of the ADC the text the display task prints is
    the exact percentage [100 * raw / 4095] rounded to one decimal: the
    rounding of the single precision arithmetic never changes a digit. *)
Theorem display_texto_exato (raw : Z) :
  0 <= raw <= 4095 ->
  sprintf_1f_pct (percentual raw) = texto_exato raw.
Proof.
  intros H. apply String.eqb_eq. revert raw H.
  apply (para_toda_leitura
           (fun r => String.eqb (sprintf_1f_pct (percentual r)) (texto_exato r))).
  vm_compute. reflexivity.
Qed.

Lemma display_texto_exato_witness :
  sprintf_1f_pct (percentual 2048) = texto_exato 2048.
Proof. apply (display_texto_exato 2048); lia. Defined.

Lemma bytes_escritos_amostra (raw : Z) :
  0 <= raw <= 4095 ->
  bytes_escritos (sprintf_1f_pct (percentual raw))
  = (if raw <=? 407 then 5%nat else if raw <=? 4092 then 6%nat else 7%nat).
Proof.
  intros H. apply Nat.eqb_eq. revert raw H.
  apply (para_toda_leitura
           (fun r => Nat.eqb (bytes_escritos (sprintf_1f_pct (percentual r)))
                             (if r <=? 407 then 5%nat else if r <=? 4092 then 6%nat else 7%nat))).
  vm_compute. reflexivity.
Qed.

Lemma bytes_escritos_limite (raw : Z) :
  0 <= raw <= 4095 ->
  (bytes_escritos (sprintf_1f_pct (percentual raw)) <= 7)%nat.
Proof.
  intros H. rewrite (bytes_escritos_amostra raw H).
  destruct (raw <=? 407); [lia|]. destruct (raw <=? 4092); lia.
Qed.

(** X4. The bytes [sprintf] stores for a sample of the ADC, the NUL
    included: five up to the sample 407, six from 408 to 4092 and seven
    from 4093 on; never more than seven. *)
Theorem sprintf_bytes_por_amostra (raw : Z) :
  0 <= raw <= 4095 ->
  bytes_escritos (sprintf_1f_pct (percentual raw))
  = (if raw <=? 407 then 5%nat else if raw <=? 4092 then 6%nat else 7%nat)
  /\ (bytes_escritos (sprintf_1f_pct (percentual raw)) <= 7)%nat.
Proof.
  intros H. split; [apply bytes_escritos_amostra | apply bytes_escritos_limite];
    exact H.
Qed.

Lemma sprintf_bytes_por_amostra_witness :
  bytes_escritos (sprintf_1f_pct (percentual 4093))
  = (if 4093 <=? 407 then 5%nat else if 4093 <=? 4092 then 6%nat else 7%nat)
  /\ (bytes_escritos (sprintf_1f_pct (percentual 4093)) <= 7)%nat.
Proof. apply (sprintf_bytes_por_amostra 4093); lia. Defined.

(** ** The queue under every schedule *)

Lemma fila_limite_passo (s : sistema) (p : passo) :
  (length (itens (xQueueSensores s)) <= uxLength (xQueueSensores s))%nat ->
  uxLength (xQueueSensores (executa_passo s p)) = uxLength (xQueueSensores s)
  /\ (length (itens (xQueueSensores (executa_passo s p)))
      <= uxLength (xQueueSensores s))%nat.
Proof.
  intros H. destruct p as [raw_y raw_x | t]; cbn [executa_passo].
  - unfold vJoystickTask_ciclo, xQueueSend.
    destruct (Nat.ltb_spec (length (itens (xQueueSensores s)))
                           (uxLength (xQueueSensores s))); cbn.
    + rewrite length_app. cbn. lia.
    + lia.
  - unfold recebe, xQueueReceive.
    destruct (itens (xQueueSensores s)) as [|item resto] eqn:E; cbn.
    + rewrite E. cbn. lia.
    + cbn in H. lia.
Qed.

(** X5. Under every schedule of samples and receives the queue keeps its
    five slots and never holds more than five readings. *)
Theorem fila_nunca_excede (ps : list passo) :
  uxLength (xQueueSensores (executa main ps)) = 5%nat
  /\ (length (itens (xQueueSensores (executa main ps))) <= 5)%nat.
Proof.
  assert (G : forall s,
             uxLength (xQueueSensores s) = 5%nat ->
             (length (itens (xQueueSensores s)) <= 5)%nat ->
             uxLength (xQueueSensores (executa s ps)) = 5%nat
             /\ (length (itens (xQueueSensores (executa s ps))) <= 5)%nat).
  { induction ps as [|p ps IH]; intros s Hu Hl; [split; assumption|].
    rewrite executa_cons.
    destruct (fila_limite_passo s p) as [Hu' Hl']; [lia|].
    apply IH; lia. }
  apply G; cbn; lia.
Qed.

Lemma produzidos_executa (ps : list passo) (s : sistema) :
  produzidos (executa s ps) = produzidos s ++ leituras (amostras_de ps).
Proof.
  revert s. induction ps as [|p ps IH]; intros s.
  - cbn. rewrite app_nil_r. reflexivity.
  - rewrite executa_cons, IH.
    destruct p as [raw_y raw_x | t]; cbn [executa_passo amostras_de flat_map].
    + unfold vJoystickTask_ciclo, xQueueSend.
      destruct (Nat.ltb _ _); cbn; rewrite <- app_assoc; reflexivity.
    + unfold recebe, xQueueReceive.
      destruct (itens (xQueueSensores s)); reflexivity.
Qed.

Lemma amostras_de_alternados (t : tarefa) (amostras : list (Z * Z)) :
  amostras_de (passos_alternados t amostras) = amostras.
Proof.
  induction amostras as [|[raw_y raw_x] resto IH]; [reflexivity|].
  cbn. unfold amostras_de, passos_alternados in IH. rewrite IH. reflexivity.
Qed.

Lemma conta_passo (s : sistema) (p : passo) :
  (entregas (executa_passo s p)
   + length (itens (xQueueSensores (executa_passo s p)))
   + descartados s [p]
   = entregas s + length (itens (xQueueSensores s)) + length (amostras_de [p]))%nat.
Proof.
  destruct p as [raw_y raw_x | t]; cbn [executa_passo descartados amostras_de flat_map].
  - unfold vJoystickTask_ciclo, xQueueSend.
    destruct (Nat.ltb _ _); cbn; unfold entregas; cbn;
      rewrite ?length_app; cbn; lia.
  - destruct (itens (xQueueSensores s)) as [|item resto] eqn:E.
    + destruct (passo_Le_vazia s t E) as [Es _].
      cbn [executa_passo] in Es. rewrite Es, E. cbn. lia.
    + destruct (passo_Le_item s t item resto E) as [Es _].
      cbn [executa_passo] in Es. rewrite Es. unfold entregas. cbn.
      destruct t; cbn; rewrite ?length_app; cbn; lia.
Qed.

Lemma descartados_cons (s : sistema) (p : passo) (ps : list passo) :
  descartados s (p :: ps)
  = (descartados s [p] + descartados (executa_passo s p) ps)%nat.
Proof. cbn [descartados]. lia. Qed.

Lemma amostras_de_cons (p : passo) (ps : list passo) :
  length (amostras_de (p :: ps))
  = (length (amostras_de [p]) + length (amostras_de ps))%nat.
Proof.
  unfold amostras_de. cbn [flat_map]. rewrite app_nil_r. apply length_app.
Qed.

Lemma conta_executa (ps : list passo) (s : sistema) :
  (entregas (executa s ps)
   + length (itens (xQueueSensores (executa s ps)))
   + descartados s ps
   = entregas s + length (itens (xQueueSensores s)) + length (amostras_de ps))%nat.
Proof.
  revert s. induction ps as [|p ps IH]; intros s.
  - cbn. lia.
  - rewrite executa_cons, descartados_cons, amostras_de_cons.
    pose proof (IH (executa_passo s p)) as H1.
    pose proof (conta_passo s p) as H2.
    lia.
Qed.

(** X6. Count of the readings, under every schedule: those received by
    the four consumers, those waiting in the queue and the sends that
    returned errQUEUE_FULL add up to the number of samples, which is the
    number of readings produced. *)
Theorem entregas_contadas (ps : list passo) :
  (entregas (executa main ps)
   + length (itens (xQueueSensores (executa main ps)))
   + descartados main ps
   = length (amostras_de ps))%nat
  /\ length (produzidos (executa main ps)) = length (amostras_de ps).
Proof.
  split.
  - rewrite (conta_executa ps main). reflexivity.
  - rewrite produzidos_executa. cbn [produzidos main app].
    unfold leituras. apply length_map.
Qed.

Lemma executa_alternados (t : tarefa) (amostras : list (Z * Z)) (s : sistema) :
  itens (xQueueSensores s) = [] ->
  (0 < uxLength (xQueueSensores s))%nat ->
  itens (xQueueSensores (executa s (passos_alternados t amostras))) = []
  /\ forall t', recebidos (executa s (passos_alternados t amostras)) t'
                = if tarefa_eqb t t'
                  then recebidos s t' ++ leituras amostras
                  else recebidos s t'.
Proof.
  revert s. induction amostras as [|[raw_y raw_x] resto IH]; intros s He Hu.
  - cbn. split; [exact He|]. intros t'.
    destruct (tarefa_eqb t t'); [rewrite app_nil_r|]; reflexivity.
  - change (passos_alternados t ((raw_y, raw_x) :: resto))
      with (Amostra raw_y raw_x :: Le t :: passos_alternados t resto).
    rewrite !executa_cons.
    set (s2 := executa_passo (executa_passo s (Amostra raw_y raw_x)) (Le t)).
    assert (E2 : s2 = {| xQueueSensores := {| uxLength := uxLength (xQueueSensores s);
                                              itens := [] |};
                         recebidos := fun t' =>
                           if tarefa_eqb t t'
                           then recebidos s t' ++ [vJoystickTask_dados raw_y raw_x]
                           else recebidos s t';
                         produzidos := produzidos s ++ [vJoystickTask_dados raw_y raw_x] |}).
    { subst s2. cbn [executa_passo]. unfold vJoystickTask_ciclo, xQueueSend.
      rewrite He. cbn [length].
      destruct (Nat.ltb_spec 0 (uxLength (xQueueSensores s))); [|lia].
      reflexivity. }
    destruct (IH s2) as [Hq Hr]; [rewrite E2; reflexivity | rewrite E2; exact Hu|].
    split; [exact Hq|].
    intros t'. rewrite Hr, E2. cbn [recebidos leituras map fst snd].
    destruct (tarefa_eqb t t'); [rewrite <- app_assoc|]; reflexivity.
Qed.

(** X7. When one consumer receives after every sample it loses nothing:
    it has received every reading produced, in order, the queue is left
    empty and the other consumers have received nothing. *)
Theorem consumidor_alternado (t : tarefa) (amostras : list (Z * Z)) :
  let s := executa main (passos_alternados t amostras) in
  recebidos s t = leituras amostras
  /\ recebidos s t = produzidos s
  /\ itens (xQueueSensores s) = []
  /\ forall t', recebidos s t' = if tarefa_eqb t t' then leituras amostras else [].
Proof.
  cbn zeta.
  destruct (executa_alternados t amostras main) as [Hq Hr];
    [reflexivity | cbn; lia |].
  assert (Ht : recebidos (executa main (passos_alternados t amostras)) t
               = leituras amostras).
  { rewrite Hr. replace (tarefa_eqb t t) with true by (destruct t; reflexivity).
    reflexivity. }
  assert (Hp : produzidos (executa main (passos_alternados t amostras))
               = leituras amostras).
  { rewrite produzidos_executa, amostras_de_alternados. reflexivity. }
  split; [exact Ht|]. split; [rewrite Ht, Hp; reflexivity|].
  split; [exact Hq|]. exact Hr.
Qed.

(** ** The consumer loops on a stream of readings *)

Lemma atraso_total_app (evs1 evs2 : list evento) :
  atraso_total (evs1 ++ evs2) = atraso_total evs1 + atraso_total evs2.
Proof.
  induction evs1 as [|e evs1 IH]; [reflexivity|].
  destruct e; cbn; rewrite ?IH; lia.
Qed.

Lemma tempo_ativo_app (pts1 pts2 : list (Z * Z)) :
  tempo_ativo (pts1 ++ pts2) = tempo_ativo pts1 + tempo_ativo pts2.
Proof.
  induction pts1 as [|[nivel ms] pts1 IH]; [reflexivity|].
  cbn. rewrite IH. lia.
Qed.

(** X8. The buzzer task spends 500 ms on every reading, with the alert
    set (200 on, 300 off) or not: [n] readings take 500 n ms. The tone is
    on for 200 ms per alert reading and for no other time, and the level
    driven is always 0 or 6250, within the PWM period. *)
Theorem buzzer_periodo (ds : list dados_sensor_t) (nivel0 : Z) :
  atraso_total (vBuzzerTask ds) = 500 * Z.of_nat (length ds)
  /\ tempo_ativo (patamares BUZZER nivel0 (vBuzzerTask ds))
     = 200 * Z.of_nat (length (filter alerta ds))
  /\ Forall (fun pt => fst pt = 0 \/ fst pt = 6250)
            (patamares BUZZER nivel0 (vBuzzerTask ds))
  /\ Forall (fun pt => 0 <= fst pt <= BUZZER_WRAP)
            (patamares BUZZER nivel0 (vBuzzerTask ds)).
Proof.
  split; [|rewrite vBuzzerTask_refina; clear nivel0].
  - induction ds as [|d ds IH]; [reflexivity|].
    unfold vBuzzerTask in *. cbn [flat_map length].
    rewrite atraso_total_app, IH, Nat2Z.inj_succ.
    unfold vBuzzerTask_iter. destruct (alerta d); cbn [atraso_total]; lia.
  - assert (F : Forall (fun pt => fst pt = 0 \/ fst pt = 6250)
                       (map alarm_patamar (alarm_run (map alerta ds)))).
    { apply Forall_forall. intros pt Hin. apply in_map_iff in Hin.
      destruct Hin as (st & <- & _). destruct st; cbn; auto. }
    split; [|split; [exact F|]].
    + clear F. induction ds as [|d ds IH]; [reflexivity|].
      unfold alarm_run in *. cbn [map flat_map].
      rewrite map_app, tempo_ativo_app, IH.
      change (filter alerta (d :: ds))
        with (if alerta d then d :: filter alerta ds else filter alerta ds).
      destruct (alerta d); cbn [alarm_observe length map alarm_patamar tempo_ativo];
        rewrite ?Nat2Z.inj_succ; cbn [alarm_duty alarm_hold];
        change (BUZZER_WRAP / 2) with 6250; cbn [Z.eqb]; lia.
    + eapply Forall_impl; [|exact F]. intros pt [E|E]; rewrite E; unfold BUZZER_WRAP; lia.
Qed.

(** X9. The buzzer is never left sounding: after the pass for any
    reading the level is 0, so it is silent whenever the task waits for
    the queue, however long, and from a silent start it is silent at the
    end of every run. *)
Theorem buzzer_termina_mudo (ds : list dados_sensor_t) (d : dados_sensor_t)
    (nivel0 : Z) :
  nivel_pwm BUZZER nivel0 (vBuzzerTask (ds ++ [d])) = 0
  /\ nivel_pwm BUZZER 0 (vBuzzerTask ds) = 0.
Proof.
  assert (H : forall l x n0, nivel_pwm BUZZER n0 (vBuzzerTask (l ++ [x])) = 0).
  { intros l x n0. unfold vBuzzerTask. rewrite flat_map_app, nivel_pwm_app.
    cbn [flat_map]. rewrite app_nil_r. unfold vBuzzerTask_iter.
    destruct (alerta x); reflexivity. }
  split; [apply H|].
  destruct ds as [|d0 ds0] using rev_ind; [reflexivity | apply H].
Qed.

(** X10. The LED shows the last reading received, whatever came before:
    after a run of readings red, green and blue are at the levels of the
    last one. Blue, dark at the start, stays dark; the task spends 200 ms
    per reading. *)
Theorem led_ultima_leitura (ds : list dados_sensor_t) (d : dados_sensor_t)
    (r0 g0 b0 : Z) :
  let evs := vLedRgbTask (ds ++ [d]) in
  nivel_pwm LED_R r0 evs = (if alerta d then 255 else 0)
  /\ nivel_pwm LED_G g0 evs = (if alerta d then 0 else 255)
  /\ nivel_pwm LED_B b0 evs = 0
  /\ nivel_pwm LED_B 0 (vLedRgbTask ds) = 0
  /\ atraso_total (vLedRgbTask ds) = 200 * Z.of_nat (length ds).
Proof.
  cbn zeta.
  assert (H : forall l x gpio n0,
             nivel_pwm gpio n0 (vLedRgbTask (l ++ [x]))
             = nivel_pwm gpio (nivel_pwm gpio n0 (vLedRgbTask l)) (vLedRgbTask_iter x)).
  { intros l x gpio n0. unfold vLedRgbTask.
    rewrite flat_map_app, nivel_pwm_app. cbn [flat_map]. rewrite app_nil_r.
    reflexivity. }
  rewrite !H. unfold vLedRgbTask_iter.
  split; [destruct (alerta d); reflexivity|].
  split; [destruct (alerta d); reflexivity|].
  split; [destruct (alerta d); reflexivity|].
  split.
  - destruct ds as [|x l] using rev_ind; [reflexivity|].
    rewrite H. unfold vLedRgbTask_iter. destruct (alerta x); reflexivity.
  - induction ds as [|x l IH]; [reflexivity|].
    unfold vLedRgbTask in *. cbn [flat_map length].
    rewrite atraso_total_app, IH, Nat2Z.inj_succ.
    unfold vLedRgbTask_iter. destruct (alerta x); cbn [atraso_total app]; lia.
Qed.

Lemma palavras_app (evs1 evs2 : list evento) :
  palavras (evs1 ++ evs2) = palavras evs1 ++ palavras evs2.
Proof. apply flat_map_app. Qed.

(** X11. On a run of readings the matrix task pushes one block of 25
    equal words per reading, in order, red for an alert and green
    otherwise: 25 n words for [n] readings; it spends 500 ms per
    reading. *)
Theorem matriz_fluxo (ds : list dados_sensor_t) :
  palavras (vMatrizLedTask ds)
  = flat_map (fun d => repeat (if alerta d then COR_VERMELHO else COR_VERDE) 25) ds
  /\ length (palavras (vMatrizLedTask ds)) = (25 * length ds)%nat
  /\ atraso_total (vMatrizLedTask ds) = 500 * Z.of_nat (length ds).
Proof.
  assert (E : palavras (vMatrizLedTask ds)
              = flat_map (fun d => repeat (if alerta d then COR_VERMELHO
                                           else COR_VERDE) 25) ds).
  { induction ds as [|d ds IH]; [reflexivity|].
    unfold vMatrizLedTask in *. cbn [flat_map].
    rewrite palavras_app, IH. f_equal. }
  split; [exact E|]. split.
  - rewrite E. clear E. induction ds as [|d ds IH]; [reflexivity|].
    cbn [flat_map length]. rewrite length_app, IH, repeat_length. lia.
  - clear E. induction ds as [|d ds IH]; [reflexivity|].
    unfold vMatrizLedTask in *. cbn [flat_map length].
    rewrite atraso_total_app, IH, Nat2Z.inj_succ.
    unfold vMatrizLedTask_iter. rewrite atraso_total_app.
    assert (L : forall n c, atraso_total (laco_matriz n c) = 0).
    { induction n; intros; cbn; auto. }
    rewrite L. cbn [atraso_total]. lia.
Qed.

(** X12. The four devices agree on a reading, whatever they showed
    before: read back from its outputs, each device shows the alert
    pattern (LED red with green off, 25 red words, a tone followed by
    silence, the emergency banner and not the normal one) when the alert
    flag of the reading is set, and the normal pattern (LED green with
    red off, 25 green words, silence only, the normal banner and not the
    emergency one) when it is not. *)
Theorem atuadores_concordam (dados : dados_sensor_t) (r0 g0 nivel0 : Z) :
  led_estado r0 g0 (vLedRgbTask_iter dados) = Some (alerta dados)
  /\ matriz_estado (vMatrizLedTask_iter dados) = Some (alerta dados)
  /\ buzzer_estado nivel0 (vBuzzerTask_iter dados) = Some (alerta dados)
  /\ display_estado (vDisplayTask_iter dados) = Some (alerta dados).
Proof.
  unfold led_estado, matriz_estado, buzzer_estado, display_estado,
    vLedRgbTask_iter, vMatrizLedTask_iter, vBuzzerTask_iter, vDisplayTask_iter.
  destruct (alerta dados); repeat split; reflexivity.
Qed.

(** ** From the ADC to the consumers *)

(** X13. Under every schedule whose samples are values of the ADC, every
    reading a consumer receives has both percentages in [0, 100], its
    alert flag is the test on the raw thresholds of some sample of the
    schedule, and each percentage prints in at most seven bytes. *)
Theorem recebidos_em_faixa (ps : list passo) (t : tarefa) (d : dados_sensor_t) :
  Forall (fun a => 0 <= fst a <= 4095 /\ 0 <= snd a <= 4095) (amostras_de ps) ->
  In d (recebidos (executa main ps) t) ->
  em_0_100 (nivel_agua d) = true
  /\ em_0_100 (volume_chuva d) = true
  /\ (bytes_escritos (sprintf_1f_pct (nivel_agua d)) <= 7)%nat
  /\ (bytes_escritos (sprintf_1f_pct (volume_chuva d)) <= 7)%nat
  /\ exists raw_y raw_x,
       In (raw_y, raw_x) (amostras_de ps)
       /\ d = vJoystickTask_dados raw_y raw_x
       /\ alerta d = (2867 <=? raw_y) || (3276 <=? raw_x).
Proof.
  intros Hfaixa Hin.
  pose proof (em_ordem_executa ps main em_ordem_main t) as Hsub.
  assert (Hprod : In d (produzidos (executa main ps))).
  { eapply sub_In; [exact Hsub|]. apply in_or_app. left. exact Hin. }
  rewrite produzidos_executa in Hprod. cbn [produzidos main app] in Hprod.
  unfold leituras in Hprod. apply in_map_iff in Hprod.
  destruct Hprod as ([raw_y raw_x] & <- & Ha).
  rewrite Forall_forall in Hfaixa. destruct (Hfaixa _ Ha) as [Hy Hx].
  cbn [fst snd] in *. cbn [vJoystickTask_dados nivel_agua volume_chuva].
  repeat split;
    auto using percentual_em_0_100, bytes_escritos_limite.
  exists raw_y, raw_x. repeat split; [exact Ha|].
  apply (alerta_por_amostra raw_y raw_x Hy Hx).
Qed.

Lemma recebidos_em_faixa_witness :
  let d := vJoystickTask_dados 3071 409 in
  em_0_100 (nivel_agua d) = true
  /\ em_0_100 (volume_chuva d) = true
  /\ (bytes_escritos (sprintf_1f_pct (nivel_agua d)) <= 7)%nat
  /\ (bytes_escritos (sprintf_1f_pct (volume_chuva d)) <= 7)%nat
  /\ exists raw_y raw_x,
       In (raw_y, raw_x) (amostras_de [Amostra 3071 409; Le Display])
       /\ d = vJoystickTask_dados raw_y raw_x
       /\ alerta d = (2867 <=? raw_y) || (3276 <=? raw_x).
Proof.
  intros d.
  apply (recebidos_em_faixa [Amostra 3071 409; Le Display] Display d).
  - repeat constructor; cbn; lia.
  - cbn. left. reflexivity.
Defined.
